(** * pywhistle: a shallow embedding of [pywhistle/client.py]

    The module is a thin asynchronous client of the Whistle REST API.  The
    embedding follows the Python text method by method:

    - Python values that flow through the client are the inductive [PyVal];
      a [dict] is an insertion-ordered association list, as in CPython;
    - the [Client] object is a record of its five instance fields; the
      [aiohttp] session it borrows is a field like the others, modelled by
      what it answers to a request;
    - a coroutine is a function [World -> Result A * World]: the world is the
      client object together with the list of the requests handed to the
      session so far, and an exception leaves the world as it was when
      raised (Python does not roll assignments back);
    - the host platform (wall clock, local time zone, [repr] of floats and
      containers, the year padding of the C library) is the record
      [Platform], a variable of the section. *)

From Stdlib Require Import ZArith List String Ascii Bool Lia.
From Stdlib Require Import DecimalString.
Import ListNotations.
Open Scope string_scope.
Open Scope Z_scope.
Set Warnings "-register-all".

(** ** Python values *)

(** The values that reach the client: what [json.loads] produces, and what a
    caller passes as [pet_id], query parameter or request body.  A float is
    kept as its IEEE-754 binary64 bit pattern: the client never computes
    with one. *)
Inductive PyVal : Type :=
| PyNone : PyVal
| PyBool : bool -> PyVal
| PyInt : Z -> PyVal
| PyFloat : N -> PyVal
| PyStr : string -> PyVal
| PyList : list PyVal -> PyVal
| PyDict : list (string * PyVal) -> PyVal.

(** A Python [dict] with [str] keys, in insertion order. *)
Definition Dict (V : Type) : Type := list (string * V).

(** [d.get(k)]: the value bound to [k], if any. *)
Fixpoint dict_get {V : Type} (k : string) (d : Dict V) : option V :=
  match d with
  | [] => None
  | (k', v) :: rest => if String.eqb k k' then Some v else dict_get k rest
  end.

(** [v is None] and [v is not None]. *)
Definition is_None (v : PyVal) : bool :=
  match v with PyNone => true | _ => false end.

Definition is_not_None (v : PyVal) : bool := negb (is_None v).

(** [bool(v)], Python's truth value testing. *)
Definition truthy (v : PyVal) : bool :=
  match v with
  | PyNone => false
  | PyBool b => b
  | PyInt z => negb (z =? 0)
  | PyFloat bits => negb (N.eqb (N.land bits (N.ones 63)) 0)
  | PyStr s => negb (String.eqb s "")
  | PyList l => match l with [] => false | _ => true end
  | PyDict d => match d with [] => false | _ => true end
  end.

(** ** Exceptions and results *)

(** The exceptions the module can let escape.  [raise_for_status] raises
    aiohttp's [ClientResponseError], whose attributes are the status, the
    reason phrase and the response headers; the session itself raises when
    the connection fails, and [TypeError] or [ValueError] when it refuses a
    query value; [r.json()] raises [ContentTypeError] when the
    response is not announced as JSON and [JSONDecodeError] when its body
    does not parse. *)
Inductive Exn : Type :=
| TypeError : string -> Exn
| KeyError : string -> Exn
| ClientResponseError (status : Z) (message : string)
    (headers : Dict string) : Exn
| ClientConnectionError : string -> Exn
| ValueError : string -> Exn
| ContentTypeError : Exn
| JSONDecodeError : Exn.

Inductive Result (A : Type) : Type :=
| Ok : A -> Result A
| Raise : Exn -> Result A.
Arguments Ok {A} _.
Arguments Raise {A} _.

(** ** The host platform *)

(** A naive [datetime.datetime]. *)
Record datetime : Type := mk_datetime {
  year : Z; month : Z; day : Z;
  hour : Z; minute : Z; second : Z; microsecond : Z
}.

Record Platform : Type := {
  (** what [datetime.datetime.now()] returns: local wall-clock time *)
  clock_now : datetime;
  (** offset of local time from UTC, in seconds east, at a POSIX instant *)
  tz_utcoffset : Z -> Z;
  (** [str] of a float, a list or a dict *)
  repr_compound : PyVal -> string;
  (** whether the C library pads [%Y] with zeros to four digits (glibc
      does not: the year 99 is printed as two digits) *)
  strftime_pads_year : bool
}.

(** ** String formatting *)

Definition str_of_Z (z : Z) : string := NilZero.string_of_int (Z.to_int z).

(** [str(v)], as the [%s] conversion applies it. *)
Definition py_str (os : Platform) (v : PyVal) : string :=
  match v with
  | PyNone => "None"
  | PyBool true => "True"
  | PyBool false => "False"
  | PyInt z => str_of_Z z
  | PyStr s => s
  | PyFloat _ | PyList _ | PyDict _ => repr_compound os v
  end.

(** [fmt % args] for a format that uses only the [%s] conversion (and
    [%%]): each [%s] consumes the next argument; too few or too many
    arguments is a [TypeError]. *)
Fixpoint percent_format (os : Platform) (fmt : string) (args : list PyVal)
  : Result string :=
  match fmt with
  | EmptyString =>
      match args with
      | [] => Ok EmptyString
      | _ :: _ =>
          Raise (TypeError "not all arguments converted during string formatting")
      end
  | String "%" (String "s" rest) =>
      match args with
      | [] => Raise (TypeError "not enough arguments for format string")
      | a :: args' =>
          match percent_format os rest args' with
          | Ok s => Ok (py_str os a ++ s)
          | Raise e => Raise e
          end
      end
  | String "%" (String "%" rest) =>
      match percent_format os rest args with
      | Ok s => Ok (String "%" s)
      | Raise e => Raise e
      end
  | String c rest =>
      match percent_format os rest args with
      | Ok s => Ok (String c s)
      | Raise e => Raise e
      end
  end.

(** ** Dates *)

(** Left-pads a decimal numeral with zeros up to [width] characters. *)
Fixpoint zero_pad (fuel : nat) (width : nat) (s : string) : string :=
  match fuel with
  | O => s
  | S fuel' =>
      if Nat.ltb (String.length s) width
      then zero_pad fuel' width (String "0" s)
      else s
  end.

Definition zfill (width : nat) (s : string) : string :=
  zero_pad width width s.

(** [d.strftime(fmt)] for the directives of [DATEFORMAT_YYYYMMDD]: [%Y] is
    the year with century, as the C library of the host prints it, zero
    padded to four digits or not padded at all; [%m] and [%d] are the month
    and the day of the month, zero padded to two.  Any other character is
    copied. *)
Fixpoint strftime (os : Platform) (d : datetime) (fmt : string) : string :=
  match fmt with
  | EmptyString => EmptyString
  | String "%" (String "Y" rest) =>
      (if strftime_pads_year os
       then zfill 4 (str_of_Z (year d))
       else str_of_Z (year d)) ++ strftime os d rest
  | String "%" (String "m" rest) =>
      zfill 2 (str_of_Z (month d)) ++ strftime os d rest
  | String "%" (String "d" rest) =>
      zfill 2 (str_of_Z (day d)) ++ strftime os d rest
  | String c rest => String c (strftime os d rest)
  end.

(** The proleptic Gregorian date of a day count relative to 1970-01-01. *)
Definition civil_from_days (days : Z) : Z * Z * Z :=
  let z := days + 719468 in
  let era := z / 146097 in
  let doe := z - era * 146097 in
  let yoe := (doe - doe / 1460 + doe / 36524 - doe / 146096) / 365 in
  let doy := doe - (365 * yoe + yoe / 4 - yoe / 100) in
  let mp := (5 * doy + 2) / 153 in
  let d := doy - (153 * mp + 2) / 5 + 1 in
  let m := if mp <? 10 then mp + 3 else mp - 9 in
  let y := yoe + era * 400 + (if m <=? 2 then 1 else 0) in
  (y, m, d).

(** [datetime.datetime.fromtimestamp(ts)] for an integral POSIX timestamp:
    the naive LOCAL date and time of that instant. *)
Definition fromtimestamp (os : Platform) (ts : Z) : datetime :=
  let t := ts + tz_utcoffset os ts in
  let secs := t mod 86400 in
  let '(y, m, d) := civil_from_days (t / 86400) in
  mk_datetime y m d (secs / 3600) ((secs mod 3600) / 60) (secs mod 60) 0.

(** ** Configuration, requests and the borrowed session *)

Record Config : Type := {
  proto : string;
  remote_host : string;
  endpoint : string
}.

Definition WHISTLE_CONST : Config :=
  {| proto := "https"; remote_host := "app.whistle.com"; endpoint := "api" |}.

(** The arguments of one call of [self._websession.request]. *)
Record Request : Type := {
  req_method : string;
  req_url : string;
  req_headers : Dict string;
  req_data : option (Dict PyVal);
  req_params : Dict PyVal
}.

(** What [await r.json()] does with a response. *)
Inductive JsonBody : Type :=
| Parsed : PyVal -> JsonBody
| UnexpectedMimetype : JsonBody
| Malformed : JsonBody.

(** What the client can observe of an aiohttp response: its status line, its
    headers, the raw body, and what [await r.json()] makes of it. *)
Record HttpResponse : Type := {
  status : Z;
  reason : string;
  resp_headers : Dict string;
  body : string;
  json : JsonBody
}.

(** What [session.request] does with its arguments: it refuses them and
    raises before any I/O, or the connection fails, or a response comes. *)
Inductive Answer : Type :=
| Rejected : Exn -> Answer
| ConnectionFailed : string -> Answer
| Answered : HttpResponse -> Answer.

(** An infinity or a NaN, read off the binary64 bit pattern. *)
Definition float_exponent (bits : N) : N := N.land (N.shiftr bits 52) 2047.

Definition float_mantissa (bits : N) : N := N.land bits (N.ones 52).

(** The check aiohttp (through yarl) applies to one query value: a [str],
    an [int] that is not a [bool], or a finite [float]; anything else
    raises. *)
Definition query_var (v : PyVal) : Result unit :=
  match v with
  | PyStr _ | PyInt _ => Ok tt
  | PyFloat bits =>
      if N.eqb (float_exponent bits) 2047
      then if N.eqb (float_mantissa bits) 0
           then Raise (ValueError "float('inf') is not supported")
           else Raise (ValueError "float('nan') is not supported")
      else Ok tt
  | PyNone | PyBool _ | PyList _ | PyDict _ =>
      Raise (TypeError
               "Invalid variable type: value should be str, int or float")
  end.

Fixpoint query_vars (vs : list PyVal) : Result unit :=
  match vs with
  | [] => Ok tt
  | v :: rest =>
      match query_var v with
      | Ok _ => query_vars rest
      | Raise e => Raise e
      end
  end.

(** The check on the whole query mapping, entry by entry: the value of an
    entry is one value, or a list of values for a repeated key. *)
Fixpoint check_query (params : Dict PyVal) : Result unit :=
  match params with
  | [] => Ok tt
  | (_, v) :: rest =>
      match (match v with PyList vs => query_vars vs | _ => query_var v end)
      with
      | Ok _ => check_query rest
      | Raise e => Raise e
      end
  end.

(** The session answers a request, knowing the requests it was handed
    before.  Being an aiohttp session, it refuses a request whose query
    does not pass the check, with the exception of the check. *)
Record Session : Type := {
  session_answer :> list Request -> Request -> Answer;
  session_checks_query :
    forall (history : list Request) (rq : Request) (e : Exn),
      check_query (req_params rq) = Raise e ->
      session_answer history rq = Rejected e
}.

(** The session of a given transport and server: the arguments are checked
    first, and the transport is reached only when they pass. *)
Definition aiohttp_session (server : list Request -> Request -> Answer)
  : Session.
Proof.
  refine {| session_answer := fun history rq =>
              match check_query (req_params rq) with
              | Raise e => Rejected e
              | Ok _ => server history rq
              end |}.
  intros history rq e H. rewrite H. reflexivity.
Defined.

(** ** The client object and the world *)

Record Client : Type := {
  _config : option Config;
  _token : PyVal;
  _username : string;
  _password : string;
  _websession : Session
}.

Record World : Type := {
  self : Client;
  sent : list Request
}.

Definition M (A : Type) : Type := World -> Result A * World.

Definition ret {A : Type} (a : A) : M A := fun w => (Ok a, w).

Definition bind {A B : Type} (m : M A) (k : A -> M B) : M B :=
  fun w =>
    match m w with
    | (Ok a, w') => k a w'
    | (Raise e, w') => (Raise e, w')
    end.

Notation "x <- m ;; k" := (bind m (fun x => k))
  (at level 61, m at next level, right associativity).

Definition lift {A : Type} (r : Result A) : M A := fun w => (r, w).

Definition get_self : M Client := fun w => (Ok (self w), w).

Definition set_config (c : option Config) : M unit :=
  fun w =>
    (Ok tt,
     {| self := {| _config := c; _token := _token (self w);
                   _username := _username (self w);
                   _password := _password (self w);
                   _websession := _websession (self w) |};
        sent := sent w |}).

Definition set_token (t : PyVal) : M unit :=
  fun w =>
    (Ok tt,
     {| self := {| _config := _config (self w); _token := t;
                   _username := _username (self w);
                   _password := _password (self w);
                   _websession := _websession (self w) |};
        sent := sent w |}).

(** [self._websession.request(...)]: the request is handed to the session,
    which refuses it, fails to connect, or answers. *)
Definition websession_request (rq : Request) : M HttpResponse :=
  fun w =>
    let w' := {| self := self w; sent := sent w ++ [rq] |} in
    match _websession (self w) (sent w) rq with
    | Rejected e => (Raise e, w')
    | ConnectionFailed msg => (Raise (ClientConnectionError msg), w')
    | Answered r => (Ok r, w')
    end.

(** [r.raise_for_status()]: aiohttp raises when the status is 400 or more. *)
Definition raise_for_status (r : HttpResponse) : Result unit :=
  if 400 <=? status r
  then Raise (ClientResponseError (status r) (reason r) (resp_headers r))
  else Ok tt.

(** [await r.json()]. *)
Definition response_json (r : HttpResponse) : Result PyVal :=
  match json r with
  | Parsed v => Ok v
  | UnexpectedMimetype => Raise ContentTypeError
  | Malformed => Raise JSONDecodeError
  end.

(** [obj[key]] with a [str] key. *)
Definition getitem (obj : PyVal) (key : string) : Result PyVal :=
  match obj with
  | PyDict d =>
      match dict_get key d with
      | Some v => Ok v
      | None => Raise (KeyError key)
      end
  | PyList _ => Raise (TypeError "list indices must be integers or slices, not str")
  | PyStr _ => Raise (TypeError "string indices must be integers")
  | PyNone | PyBool _ | PyInt _ | PyFloat _ =>
      Raise (TypeError "object is not subscriptable")
  end.

(** ** class Client *)

Section ClientMethods.

Variable os : Platform.

Definition DATEFORMAT_YYYYMMDD : string := "%Y-%m-%d".

(** [config[key]]: subscripting [None] raises. *)
Definition config_item (config : option Config) (field : Config -> string)
  : Result string :=
  match config with
  | Some c => Ok (field c)
  | None => Raise (TypeError "'NoneType' object is not subscriptable")
  end.

(** [Client.url]. *)
Definition url (config : option Config) (resource : string) : Result string :=
  match config_item config proto with
  | Raise e => Raise e
  | Ok p =>
  match config_item config remote_host with
  | Raise e => Raise e
  | Ok h =>
  match config_item config endpoint with
  | Raise e => Raise e
  | Ok ep =>
      percent_format os "%s://%s/%s/%s"
        [PyStr p; PyStr h; PyStr ep; PyStr resource]
  end end end.

(** [Client.headers]: the dict display is evaluated entry by entry. *)
Definition headers (config : option Config) (token : PyVal)
  : Result (Dict string) :=
  match config_item config remote_host with
  | Raise e => Raise e
  | Ok h =>
  match percent_format os "Bearer %s" [token] with
  | Raise e => Raise e
  | Ok bearer =>
      Ok [ ("Host", h);
           ("Content-Type", "application/json");
           ("Connection", "keep-alive");
           ("Accept", "application/vnd.whistle.com.v4+json");
           ("Accept-Language", "en-us");
           ("Accept-Encoding", "br, gzip, deflate");
           ("User-Agent",
            "Winston/2.5.3 (iPhone; iOS 12.0.1; Build:1276; Scale/2.0)");
           ("Authorization", bearer) ]
  end end.

(** [dict((k, v) for k, v in params.items() if v is not None)]. *)
Definition drop_None (params : Dict PyVal) : Dict PyVal :=
  filter (fun kv => is_not_None (snd kv)) params.

(** [if not headers: headers = {}]. *)
Definition normalize_headers (headers : option (Dict string)) : Dict string :=
  match headers with
  | None => []
  | Some [] => []
  | Some h => h
  end.

(** [... if params else {}]. *)
Definition normalize_params (params : option (Dict PyVal)) : Dict PyVal :=
  match params with
  | None => []
  | Some [] => []
  | Some p => drop_None p
  end.

(** [Client.request].  The [print(params)] of the source writes to the
    standard output, which the world does not record. *)
Definition request (config : option Config) (method resource : string)
    (headers : option (Dict string)) (data : option (Dict PyVal))
    (params : option (Dict PyVal)) : M PyVal :=
  let headers := normalize_headers headers in
  let params := normalize_params params in
  u <- lift (url config resource) ;;
  r <- websession_request
         {| req_method := method; req_url := u; req_headers := headers;
            req_data := data; req_params := params |} ;;
  _ <- lift (raise_for_status r) ;;
  lift (response_json r).

(** [Client.get_resource]. *)
Definition get_resource (config : option Config) (token : PyVal)
    (resource : string) (params : option (Dict PyVal)) : M PyVal :=
  h <- lift (headers config token) ;;
  request config "get" resource (Some h) None params.

(** [Client.login]. *)
Definition login (config : option Config) : M PyVal :=
  me <- get_self ;;
  j <- request config "post" "login" None
         (Some [ ("email", PyStr (_username me));
                 ("password", PyStr (_password me)) ])
         None ;;
  lift (getitem j "auth_token").

(** The resource methods.  Each reads [self._config] and [self._token],
    formats its resource path and awaits [get_resource]. *)
Definition get_pets : M PyVal :=
  me <- get_self ;;
  get_resource (_config me) (_token me) "pets" None.

Definition get_owners (pet_id : PyVal) : M PyVal :=
  me <- get_self ;;
  resource <- lift (percent_format os "pets/%s/owners" [pet_id]) ;;
  get_resource (_config me) (_token me) resource None.

Definition get_places : M PyVal :=
  me <- get_self ;;
  get_resource (_config me) (_token me) "places" None.

Definition get_stats (pet_id : PyVal) : M PyVal :=
  me <- get_self ;;
  resource <- lift (percent_format os "pets/%s/stats" [pet_id]) ;;
  get_resource (_config me) (_token me) resource None.

Definition get_timeline (pet_id : PyVal) : M PyVal :=
  me <- get_self ;;
  resource <- lift (percent_format os "pets/%s/timelines/location" [pet_id]) ;;
  get_resource (_config me) (_token me) resource None.

(** The two [if] branches of [get_dailies] that fill in a missing bound.
    A [datetime] is always true, so the tests are tests for [None]. *)
Definition default_dates (start_date end_date : option datetime)
  : option datetime * option datetime :=
  match start_date, end_date with
  | Some _, None => (start_date, Some (clock_now os))
  | None, Some _ => (Some (fromtimestamp os 0), end_date)
  | _, _ => (start_date, end_date)
  end.

(** [d.strftime(DATEFORMAT_YYYYMMDD) if d else None]. *)
Definition format_date (d : option datetime) : PyVal :=
  match d with
  | Some dt => PyStr (strftime os dt DATEFORMAT_YYYYMMDD)
  | None => PyNone
  end.

Definition get_dailies (pet_id : PyVal)
    (start_date end_date : option datetime) : M PyVal :=
  let '(start_date, end_date) := default_dates start_date end_date in
  let start_date := format_date start_date in
  let end_date := format_date end_date in
  me <- get_self ;;
  resource <- lift (percent_format os "pets/%s/dailies" [pet_id]) ;;
  get_resource (_config me) (_token me) resource
    (Some [("start_date", start_date); ("end_date", end_date)]).

Definition get_dailies_day (pet_id day_id : PyVal) : M PyVal :=
  me <- get_self ;;
  resource <- lift (percent_format os "pets/%s/dailies/%s" [pet_id; day_id]) ;;
  get_resource (_config me) (_token me) resource None.

Definition get_achievements (pet_id : PyVal) : M PyVal :=
  me <- get_self ;;
  resource <- lift (percent_format os "pets/%s/achievements" [pet_id]) ;;
  get_resource (_config me) (_token me) resource None.

(** [Client.async_init]. *)
Definition async_init (whistle_const : Config) : M unit :=
  _ <- set_config (Some whistle_const) ;;
  me <- get_self ;;
  if is_None (_token me)
  then (t <- login (_config me) ;; set_token t)
  else ret tt.

(** [Client.__init__]. *)
Definition init (email password : string) (websession : Session) : Client :=
  {| _config := None; _token := PyNone;
     _username := email; _password := password;
     _websession := websession |}.

(** A fresh world: the constructed client, nothing sent yet. *)
Definition new_world (email password : string) (websession : Session)
  : World :=
  {| self := init email password websession; sent := [] |}.

(** The eight resource-fetching methods, as calls with their arguments. *)
Inductive ResourceCall : Type :=
| GetPets : ResourceCall
| GetOwners (pet_id : PyVal) : ResourceCall
| GetPlaces : ResourceCall
| GetStats (pet_id : PyVal) : ResourceCall
| GetTimeline (pet_id : PyVal) : ResourceCall
| GetDailies (pet_id : PyVal) (start_date end_date : option datetime)
  : ResourceCall
| GetDailiesDay (pet_id day_id : PyVal) : ResourceCall
| GetAchievements (pet_id : PyVal) : ResourceCall.

Definition run_call (c : ResourceCall) : M PyVal :=
  match c with
  | GetPets => get_pets
  | GetOwners pet_id => get_owners pet_id
  | GetPlaces => get_places
  | GetStats pet_id => get_stats pet_id
  | GetTimeline pet_id => get_timeline pet_id
  | GetDailies pet_id start_date end_date =>
      get_dailies pet_id start_date end_date
  | GetDailiesDay pet_id day_id => get_dailies_day pet_id day_id
  | GetAchievements pet_id => get_achievements pet_id
  end.

End ClientMethods.

(** * Specification-side definitions *)

(** The string the URL is specified to be. *)
Definition composed_url (cfg : Config) (resource : string) : string :=
  proto cfg ++ "://" ++ remote_host cfg ++ "/" ++ endpoint cfg ++ "/"
    ++ resource.

(** The header set every authenticated call is specified to carry. *)
Definition fixed_headers (host bearer : string) : Dict string :=
  [ ("Host", host);
    ("Content-Type", "application/json");
    ("Connection", "keep-alive");
    ("Accept", "application/vnd.whistle.com.v4+json");
    ("Accept-Language", "en-us");
    ("Accept-Encoding", "br, gzip, deflate");
    ("User-Agent", "Winston/2.5.3 (iPhone; iOS 12.0.1; Build:1276; Scale/2.0)");
    ("Authorization", bearer) ].

(** What an answer of the session turns into once [raise_for_status] and
    [json] ran. *)
Definition outcome (a : Answer) : Result PyVal :=
  match a with
  | Rejected e => Raise e
  | ConnectionFailed msg => Raise (ClientConnectionError msg)
  | Answered r =>
      if 400 <=? status r
      then Raise (ClientResponseError (status r) (reason r) (resp_headers r))
      else match json r with
           | Parsed v => Ok v
           | UnexpectedMimetype => Raise ContentTypeError
           | Malformed => Raise JSONDecodeError
           end
  end.

(** The world once [rq] was handed to the session. *)
Definition after_sending (w : World) (rq : Request) : World :=
  {| self := self w; sent := sent w ++ [rq] |}.

(** The world once [self._config] was assigned. *)
Definition with_config (w : World) (cfg : Config) : World :=
  {| self := {| _config := Some cfg; _token := _token (self w);
                _username := _username (self w);
                _password := _password (self w);
                _websession := _websession (self w) |};
     sent := sent w |}.

(** The request [Client.request] hands to the session. *)
Definition outgoing (cfg : Config) (method resource : string)
    (h : option (Dict string)) (d : option (Dict PyVal))
    (p : option (Dict PyVal)) : Request :=
  {| req_method := method;
     req_url := composed_url cfg resource;
     req_headers := normalize_headers h;
     req_data := d;
     req_params := normalize_params p |}.

(** The resource path each resource method is specified to ask for. *)
Definition resource_of (os : Platform) (c : ResourceCall) : string :=
  match c with
  | GetPets => "pets"
  | GetOwners pet_id => "pets/" ++ py_str os pet_id ++ "/owners"
  | GetPlaces => "places"
  | GetStats pet_id => "pets/" ++ py_str os pet_id ++ "/stats"
  | GetTimeline pet_id => "pets/" ++ py_str os pet_id ++ "/timelines/location"
  | GetDailies pet_id _ _ => "pets/" ++ py_str os pet_id ++ "/dailies"
  | GetDailiesDay pet_id day_id =>
      "pets/" ++ py_str os pet_id ++ "/dailies/" ++ py_str os day_id
  | GetAchievements pet_id => "pets/" ++ py_str os pet_id ++ "/achievements"
  end.

(** The [params] argument each resource method gives to [get_resource]. *)
Definition params_of (os : Platform) (c : ResourceCall)
  : option (Dict PyVal) :=
  match c with
  | GetDailies _ start_date end_date =>
      Some [ ("start_date",
              format_date os (fst (default_dates os start_date end_date)));
             ("end_date",
              format_date os (snd (default_dates os start_date end_date))) ]
  | _ => None
  end.

(** The request a resource method sends once the client is configured. *)
Definition resource_request (os : Platform) (cfg : Config) (token : PyVal)
    (c : ResourceCall) : Request :=
  outgoing cfg "get" (resource_of os c)
    (Some (fixed_headers (remote_host cfg) ("Bearer " ++ py_str os token)))
    None (params_of os c).

(** The request [login] sends. *)
Definition login_request (cfg : Config) (me : Client) : Request :=
  outgoing cfg "post" "login" None
    (Some [("email", PyStr (_username me)); ("password", PyStr (_password me))])
    None.

(** A status of the success class. *)
Definition is_2xx (code : Z) : bool := (200 <=? code) && (code <? 300).

(** ** Concrete platforms, sessions and worlds used as instances *)

(** A host whose local time is UTC. *)
Definition utc_host : Platform :=
  {| clock_now := mk_datetime 2024 3 5 10 30 0 0;
     tz_utcoffset := fun _ => 0;
     repr_compound := fun _ => "<object>";
     strftime_pads_year := false |}.

(** A host eight hours west of UTC (US Pacific standard time). *)
Definition pacific_host : Platform :=
  {| clock_now := mk_datetime 2024 3 5 2 30 0 0;
     tz_utcoffset := fun _ => -28800;
     repr_compound := fun _ => "<object>";
     strftime_pads_year := false |}.

Definition http (code : Z) (phrase text : string) (parsed : JsonBody)
  : HttpResponse :=
  {| status := code; reason := phrase; resp_headers := [];
     body := text; json := parsed |}.

(** A server that knows the account: login succeeds with token [tok123],
    every other request is answered by one pet. *)
Definition friendly_session : Session :=
  aiohttp_session (fun _ rq =>
    if String.eqb (req_method rq) "post"
    then Answered (http 200 "OK" "{ auth_token: tok123 }"
                     (Parsed (PyDict [("auth_token", PyStr "tok123")])))
    else Answered (http 200 "OK" "[1]" (Parsed (PyList [PyInt 1])))).

(** A server that rejects the credentials, and answers any [GET]. *)
Definition rejecting_session : Session :=
  aiohttp_session (fun _ rq =>
    if String.eqb (req_method rq) "post"
    then Answered (http 401 "Unauthorized" "bad credentials" UnexpectedMimetype)
    else Answered (http 200 "OK" "[]" (Parsed (PyList [])))).

(** A server that always answers with the given response. *)
Definition constant_session (r : HttpResponse) : Session :=
  aiohttp_session (fun _ _ => Answered r).

(** Worlds whose server always answers the same thing. *)
Definition world_answering (r : HttpResponse) : World :=
  new_world "a@b.com" "pw" (constant_session r).

(** The account of the examples, before [async_init]. *)
Definition fresh_world : World := new_world "a@b.com" "pw" friendly_session.

(** The same account against the server that rejects it. *)
Definition rejected_world : World := new_world "a@b.com" "pw" rejecting_session.

(** The world a failed [async_init] leaves behind. *)
Definition half_initialized_world : World :=
  snd (async_init utc_host WHISTLE_CONST rejected_world).

(** The world a successful [async_init] leaves behind. *)
Definition initialized_world : World :=
  snd (async_init utc_host WHISTLE_CONST fresh_world).

(** The requests a coroutine hands to the session when it runs from [w]:
    what it appends to the log. *)
Definition requests_of {A : Type} (m : M A) (w : World) : list Request :=
  skipn (List.length (sent w)) (sent (snd (m w))).

(** The same world, the client holding other credentials. *)
Definition with_credentials (w : World) (email password : string) : World :=
  {| self := {| _config := _config (self w); _token := _token (self w);
                _username := email; _password := password;
                _websession := _websession (self w) |};
     sent := sent w |}.

(** A second configuration, for a client that is pointed elsewhere. *)
Definition staging_config : Config :=
  {| proto := "http"; remote_host := "staging.example"; endpoint := "v0" |}.

(** A server whose login answers an object with a null token. *)
Definition null_token_session : Session :=
  constant_session
    (http 200 "OK" "{ auth_token: null }"
       (Parsed (PyDict [("auth_token", PyNone)]))).

Definition null_token_world : World :=
  new_world "a@b.com" "pw" null_token_session.

(** * Properties *)

(** ** Strings *)

Lemma append_empty_r (s : string) : s ++ "" = s.
Proof. induction s as [| c s IH]; simpl; [reflexivity | now rewrite IH]. Qed.

(** ** The request primitive, step by step *)

Section RequestFacts.

Variable os : Platform.

Lemma url_Some (cfg : Config) (resource : string) :
  url os (Some cfg) resource = Ok (composed_url cfg resource).
Proof.
  unfold url, composed_url; simpl. now rewrite append_empty_r.
Qed.

Lemma url_None (resource : string) :
  url os None resource
  = Raise (TypeError "'NoneType' object is not subscriptable").
Proof. reflexivity. Qed.

Lemma request_run cfg method resource h d p w :
  request os (Some cfg) method resource h d p w
  = (outcome (_websession (self w) (sent w)
                (outgoing cfg method resource h d p)),
     after_sending w (outgoing cfg method resource h d p)).
Proof.
  unfold request, bind, lift, websession_request, outcome, after_sending.
  rewrite url_Some. fold (outgoing cfg method resource h d p).
  destruct (_websession (self w) (sent w) (outgoing cfg method resource h d p))
    as [e | msg | r]; [reflexivity | reflexivity |].
  unfold raise_for_status, response_json.
  destruct (400 <=? status r); reflexivity.
Qed.

Lemma request_unconfigured method resource h d p w :
  request os None method resource h d p w
  = (Raise (TypeError "'NoneType' object is not subscriptable"), w).
Proof. reflexivity. Qed.

Lemma headers_Some cfg token :
  headers os (Some cfg) token
  = Ok (fixed_headers (remote_host cfg) ("Bearer " ++ py_str os token)).
Proof.
  unfold headers, fixed_headers; simpl. now rewrite append_empty_r.
Qed.

Lemma get_resource_run cfg token resource params w :
  let rq := outgoing cfg "get" resource
              (Some (fixed_headers (remote_host cfg)
                       ("Bearer " ++ py_str os token))) None params in
  get_resource os (Some cfg) token resource params w
  = (outcome (_websession (self w) (sent w) rq), after_sending w rq).
Proof.
  intros rq. unfold get_resource, bind, lift.
  rewrite headers_Some. apply request_run.
Qed.

Lemma get_resource_unconfigured token resource params w :
  get_resource os None token resource params w
  = (Raise (TypeError "'NoneType' object is not subscriptable"), w).
Proof. reflexivity. Qed.

Lemma run_call_get_resource c w :
  run_call os c w
  = get_resource os (_config (self w)) (_token (self w))
      (resource_of os c) (params_of os c) w.
Proof.
  destruct c; unfold run_call, resource_of, params_of;
    try (unfold get_pets, get_owners, get_places, get_stats, get_timeline,
           get_dailies_day, get_achievements, bind, lift, get_self; simpl;
         rewrite ?append_empty_r; reflexivity).
  unfold get_dailies.
  destruct (default_dates os start_date end_date) as [s e]; simpl.
  unfold bind, lift, get_self; simpl. reflexivity.
Qed.

Lemma run_call_run c cfg w :
  _config (self w) = Some cfg ->
  run_call os c w
  = (outcome (_websession (self w) (sent w)
                (resource_request os cfg (_token (self w)) c)),
     after_sending w (resource_request os cfg (_token (self w)) c)).
Proof.
  intros Hc. rewrite run_call_get_resource, Hc. apply get_resource_run.
Qed.

Lemma run_call_unconfigured c w :
  _config (self w) = None ->
  run_call os c w
  = (Raise (TypeError "'NoneType' object is not subscriptable"), w).
Proof.
  intros Hc. rewrite run_call_get_resource, Hc. reflexivity.
Qed.

Lemma login_run cfg w :
  login os (Some cfg) w
  = (match outcome (_websession (self w) (sent w)
                      (login_request cfg (self w))) with
     | Ok j => getitem j "auth_token"
     | Raise e => Raise e
     end,
     after_sending w (login_request cfg (self w))).
Proof.
  unfold login, bind, get_self. rewrite request_run.
  fold (login_request cfg (self w)).
  destruct (outcome _); reflexivity.
Qed.

(** [async_init] assigns the configuration, then logs in if and only if the
    token is [None]. *)
Lemma async_init_cached cfg w :
  is_None (_token (self w)) = false ->
  async_init os cfg w = (Ok tt, with_config w cfg).
Proof.
  intros Ht. unfold async_init, bind, set_config, get_self; simpl.
  rewrite Ht. reflexivity.
Qed.

Lemma async_init_login cfg w :
  is_None (_token (self w)) = true ->
  async_init os cfg w
  = match login os (Some cfg) (with_config w cfg) with
    | (Ok t, w') => set_token t w'
    | (Raise e, w') => (Raise e, w')
    end.
Proof.
  intros Ht. unfold async_init, bind, set_config, get_self; simpl.
  rewrite Ht. reflexivity.
Qed.

Lemma is_None_false v : v <> PyNone -> is_None v = false.
Proof. destruct v; simpl; congruence. Qed.

Lemma is_None_true v : is_None v = true -> v = PyNone.
Proof. destruct v; simpl; congruence. Qed.

End RequestFacts.

(** ** URL construction *)

(** C7: for every configuration and every resource string, [url] returns
    exactly [scheme://host/apiPath/resource], the four strings joined by the
    fixed separators and otherwise untouched; and that string is the URL of
    the request the request primitive hands to the session. *)
Theorem C7_url_is_exact_composition
    (os : Platform) (cfg : Config) (resource : string) :
  url os (Some cfg) resource
  = Ok (proto cfg ++ "://" ++ remote_host cfg ++ "/" ++ endpoint cfg ++ "/"
          ++ resource)
  /\ forall method h d p w,
       exists rq,
         sent (snd (request os (Some cfg) method resource h d p w))
         = (sent w ++ [rq])%list
         /\ req_url rq
            = proto cfg ++ "://" ++ remote_host cfg ++ "/" ++ endpoint cfg
                ++ "/" ++ resource.
Proof.
  split; [apply url_Some |].
  intros method h d p w. rewrite request_run; simpl.
  eexists; split; reflexivity.
Qed.

(** Each resource method asks for the path of its row of the endpoint
    table, under the configured base. *)
Lemma resource_method_url
    (os : Platform) (c : ResourceCall) (cfg : Config) (w : World) :
  _config (self w) = Some cfg ->
  exists rq,
    sent (snd (run_call os c w)) = (sent w ++ [rq])%list
    /\ req_method rq = "get"
    /\ req_url rq
       = proto cfg ++ "://" ++ remote_host cfg ++ "/" ++ endpoint cfg ++ "/"
           ++ resource_of os c.
Proof.
  intros Hcfg. rewrite (run_call_run os c cfg w Hcfg); simpl.
  eexists; repeat split; reflexivity.
Qed.

(** ** Headers *)

(** C8: a call through [get_resource] hands the session exactly the eight
    fixed headers, with [Host] the configured host and [Authorization] the
    word Bearer followed by the token; the request of [login] carries no
    header at all. *)
Theorem C8_authenticated_header_set
    (os : Platform) (cfg : Config) (token : PyVal) (resource : string)
    (params : option (Dict PyVal)) (w : World) :
  (exists rq,
     sent (snd (get_resource os (Some cfg) token resource params w))
     = (sent w ++ [rq])%list
     /\ req_headers rq
        = [ ("Host", remote_host cfg);
            ("Content-Type", "application/json");
            ("Connection", "keep-alive");
            ("Accept", "application/vnd.whistle.com.v4+json");
            ("Accept-Language", "en-us");
            ("Accept-Encoding", "br, gzip, deflate");
            ("User-Agent",
             "Winston/2.5.3 (iPhone; iOS 12.0.1; Build:1276; Scale/2.0)");
            ("Authorization", "Bearer " ++ py_str os token) ])
  /\ (exists rq,
        sent (snd (login os (Some cfg) w)) = (sent w ++ [rq])%list
        /\ req_headers rq = []).
Proof.
  split.
  - rewrite get_resource_run; simpl. eexists; split; reflexivity.
  - rewrite login_run; simpl. eexists; split; reflexivity.
Qed.

(** ** Login *)

(** C5: [login] hands the session one POST for the resource [login], whose
    body is the pair email and password of the client (the two strings
    given to the constructor), with no header, hence no Authorization; it
    returns the [auth_token] entry of the JSON object answered; it raises
    [KeyError] when the entry is missing (and [TypeError] when the JSON
    value answered is not an object at all), and raises what the request
    raises when the request fails. *)
Theorem C5_login_exchange (os : Platform) (cfg : Config) (w : World) :
  let rq :=
    {| req_method := "post";
       req_url := proto cfg ++ "://" ++ remote_host cfg ++ "/" ++ endpoint cfg
                    ++ "/" ++ "login";
       req_headers := [];
       req_data := Some [ ("email", PyStr (_username (self w)));
                          ("password", PyStr (_password (self w))) ];
       req_params := [] |} in
  let body_request :=
    request os (Some cfg) "post" "login" None (req_data rq) None w in
  sent (snd (login os (Some cfg) w)) = (sent w ++ [rq])%list
  /\ self (snd (login os (Some cfg) w)) = self w
  /\ dict_get "Authorization" (req_headers rq) = None
  /\ (forall email password session,
        self w = init email password session ->
        req_data rq
        = Some [("email", PyStr email); ("password", PyStr password)])
  /\ (forall d t,
        fst body_request = Ok (PyDict d) ->
        dict_get "auth_token" d = Some t ->
        fst (login os (Some cfg) w) = Ok t)
  /\ (forall d,
        fst body_request = Ok (PyDict d) ->
        dict_get "auth_token" d = None ->
        fst (login os (Some cfg) w) = Raise (KeyError "auth_token"))
  /\ (forall j,
        fst body_request = Ok j ->
        (forall d, j <> PyDict d) ->
        exists msg, fst (login os (Some cfg) w) = Raise (TypeError msg))
  /\ (forall e,
        fst body_request = Raise e ->
        fst (login os (Some cfg) w) = Raise e).
Proof.
  intros rq body_request.
  assert (Hrq : login_request cfg (self w) = rq) by reflexivity.
  assert (Hbody : fst body_request
                  = outcome (_websession (self w) (sent w) rq)).
  { unfold body_request. rewrite request_run. reflexivity. }
  rewrite login_run, Hrq, Hbody; simpl.
  repeat split.
  - intros email password session Hself. rewrite Hself. reflexivity.
  - intros d t Hout Hget. rewrite Hout; simpl. now rewrite Hget.
  - intros d Hout Hget. rewrite Hout; simpl. now rewrite Hget.
  - intros j Hout Hnd. rewrite Hout.
    destruct j; simpl; try (eexists; reflexivity).
    now elim (Hnd l).
  - intros e Hout. now rewrite Hout.
Qed.

(** At the friendly server the login of the example account returns the
    token; at the rejecting one it raises the HTTP error. *)
Lemma C5_login_exchange_witness :
  fst (login utc_host (Some WHISTLE_CONST) fresh_world) = Ok (PyStr "tok123")
  /\ fst (login utc_host (Some WHISTLE_CONST) rejected_world)
     = Raise (ClientResponseError 401 "Unauthorized" []).
Proof.
  split.
  - destruct (C5_login_exchange utc_host WHISTLE_CONST fresh_world)
      as (_ & _ & _ & _ & Hok & _ & _ & _).
    apply (Hok [("auth_token", PyStr "tok123")]); reflexivity.
  - destruct (C5_login_exchange utc_host WHISTLE_CONST rejected_world)
      as (_ & _ & _ & _ & _ & _ & _ & Hfail).
    apply Hfail; reflexivity.
Defined.

(** ** Initialization *)

(** C9: [async_init] assigns the supplied configuration before it logs in.
    When the call raises, the login request was built from that
    configuration and sent, the client's configuration is the supplied one
    and its token is still [None]. *)
Theorem C9_config_kept_when_login_fails
    (os : Platform) (cfg : Config) (w : World) (e : Exn) :
  fst (async_init os cfg w) = Raise e ->
  let w' := snd (async_init os cfg w) in
  _config (self w') = Some cfg
  /\ _token (self w') = PyNone
  /\ _token (self w) = PyNone
  /\ exists rq,
       sent w' = (sent w ++ [rq])%list
       /\ req_url rq
          = proto cfg ++ "://" ++ remote_host cfg ++ "/" ++ endpoint cfg
              ++ "/" ++ "login".
Proof.
  intros Hfail w'. subst w'.
  destruct (is_None (_token (self w))) eqn:Ht.
  - rewrite async_init_login in * by exact Ht.
    rewrite login_run in *.
    destruct (match outcome _ with Ok j => getitem j "auth_token"
                                 | Raise e0 => Raise e0 end) as [t | e'];
      simpl in *; [discriminate |].
    repeat split; try (now apply is_None_true).
    eexists; split; reflexivity.
  - rewrite async_init_cached in Hfail by exact Ht. discriminate.
Qed.

Lemma C9_config_kept_when_login_fails_witness :
  fst (async_init utc_host WHISTLE_CONST rejected_world)
  = Raise (ClientResponseError 401 "Unauthorized" [])
  /\ _config (self half_initialized_world) = Some WHISTLE_CONST
  /\ _token (self half_initialized_world) = PyNone.
Proof.
  split; [reflexivity |].
  destruct (C9_config_kept_when_login_fails utc_host WHISTLE_CONST
              rejected_world (ClientResponseError 401 "Unauthorized" []))
    as (Hc & Ht & _); [reflexivity |].
  split; [exact Hc | exact Ht].
Defined.

(** ** The cached token *)

Section TokenFacts.

Variable os : Platform.

(** Only [async_init] ever assigns a field of the client. *)
Lemma request_keeps_self config method resource h d p w :
  self (snd (request os config method resource h d p w)) = self w.
Proof.
  destruct config as [cfg |];
    [rewrite request_run | rewrite request_unconfigured]; reflexivity.
Qed.

Lemma get_resource_keeps_self config token resource params w :
  self (snd (get_resource os config token resource params w)) = self w.
Proof.
  destruct config as [cfg |];
    [rewrite get_resource_run | rewrite get_resource_unconfigured];
    reflexivity.
Qed.

Lemma login_keeps_self config w :
  self (snd (login os config w)) = self w.
Proof.
  destruct config as [cfg |]; [rewrite login_run |]; reflexivity.
Qed.

Lemma run_call_keeps_self c w :
  self (snd (run_call os c w)) = self w.
Proof. rewrite run_call_get_resource. apply get_resource_keeps_self. Qed.

End TokenFacts.

(** C6: once the token is not [None], nothing changes it.  [async_init]
    then returns without handing anything to the session and leaves the
    token as it is; [login], [request], [get_resource] and the eight
    resource methods leave it as it is; and a resource method of a
    configured client sends it in its Authorization header.  [async_init]
    hands the session a request only when the token is [None], and that
    request is the login. *)
Theorem C6_token_set_once (os : Platform) (w : World) :
  _token (self w) <> PyNone ->
  (forall cfg,
     fst (async_init os cfg w) = Ok tt
     /\ sent (snd (async_init os cfg w)) = sent w
     /\ _token (self (snd (async_init os cfg w))) = _token (self w))
  /\ (forall c, _token (self (snd (run_call os c w))) = _token (self w))
  /\ (forall config, _token (self (snd (login os config w))) = _token (self w))
  /\ (forall config method resource h d p,
        _token (self (snd (request os config method resource h d p w)))
        = _token (self w))
  /\ (forall config token resource params,
        _token (self (snd (get_resource os config token resource params w)))
        = _token (self w))
  /\ (forall c cfg,
        _config (self w) = Some cfg ->
        exists rq,
          sent (snd (run_call os c w)) = (sent w ++ [rq])%list
          /\ dict_get "Authorization" (req_headers rq)
             = Some ("Bearer " ++ py_str os (_token (self w))))
  /\ (forall cfg w0,
        sent (snd (async_init os cfg w0)) <> sent w0 ->
        _token (self w0) = PyNone
        /\ exists rq,
             sent (snd (async_init os cfg w0)) = (sent w0 ++ [rq])%list
             /\ req_method rq = "post"
             /\ req_url rq
                = proto cfg ++ "://" ++ remote_host cfg ++ "/"
                    ++ endpoint cfg ++ "/" ++ "login").
Proof.
  intros Hset. apply is_None_false in Hset.
  split; [| split; [| split; [| split; [| split; [| split]]]]].
  - intros cfg. rewrite async_init_cached by exact Hset. now repeat split.
  - intros c. now rewrite run_call_keeps_self.
  - intros config. now rewrite login_keeps_self.
  - intros. now rewrite request_keeps_self.
  - intros. now rewrite get_resource_keeps_self.
  - intros c cfg Hcfg. rewrite (run_call_run os c cfg w Hcfg); simpl.
    eexists; split; reflexivity.
  - intros cfg w0 Hsent.
    destruct (is_None (_token (self w0))) eqn:Ht.
    + split; [now apply is_None_true |].
      rewrite async_init_login by exact Ht. rewrite login_run.
      destruct (match outcome _ with Ok j => getitem j "auth_token"
                                   | Raise e0 => Raise e0 end);
        simpl; eexists; repeat split; reflexivity.
    + rewrite async_init_cached in Hsent by exact Ht. now elim Hsent.
Qed.

(** In the initialized world of the example the token is [tok123]: a second
    [async_init] sends nothing, and [get_pets] sends [Bearer tok123]. *)
Lemma C6_token_set_once_witness :
  _token (self initialized_world) = PyStr "tok123"
  /\ sent (snd (async_init utc_host WHISTLE_CONST initialized_world))
     = sent initialized_world
  /\ _token (self (snd (run_call utc_host GetPets initialized_world)))
     = PyStr "tok123".
Proof.
  assert (Hset : _token (self initialized_world) <> PyNone)
    by (vm_compute; discriminate).
  destruct (C6_token_set_once utc_host initialized_world Hset)
    as (Hinit & Hcall & _).
  split; [reflexivity |]. split.
  - apply (Hinit WHISTLE_CONST).
  - rewrite (Hcall GetPets). reflexivity.
Defined.

(** ** Query parameters *)

Lemma drop_None_In (params : Dict PyVal) (k : string) (v : PyVal) :
  In (k, v) (drop_None params) <-> In (k, v) params /\ v <> PyNone.
Proof.
  unfold drop_None. rewrite filter_In; simpl.
  split; intros [Hin Hv]; split; try exact Hin.
  - intros ->. discriminate.
  - unfold is_not_None. now rewrite is_None_false.
Qed.

Lemma normalize_params_In (params : Dict PyVal) (k : string) (v : PyVal) :
  In (k, v) (normalize_params (Some params))
  <-> In (k, v) params /\ v <> PyNone.
Proof.
  destruct params as [| kv rest].
  - simpl. tauto.
  - apply drop_None_In.
Qed.

(** The filter keeps the entries in their order. *)
Lemma normalize_params_filter (params : Dict PyVal) :
  normalize_params (Some params)
  = filter (fun kv => is_not_None (snd kv)) params.
Proof. destruct params; reflexivity. Qed.

Lemma normalize_headers_Some (hs : Dict string) :
  normalize_headers (Some hs) = hs.
Proof. destruct hs; reflexivity. Qed.

(** C4: in the request the primitive hands to the session, the parameters
    are the entries of the given mapping whose value is not [None], each
    with its value as given; an entry whose value is [None] is not among
    them; and [None] given for the headers or for the parameters becomes
    the empty mapping. *)
Theorem C4_null_parameters_dropped
    (os : Platform) (cfg : Config) (method resource : string)
    (h : option (Dict string)) (d : option (Dict PyVal))
    (p : option (Dict PyVal)) (w : World) :
  exists rq,
    sent (snd (request os (Some cfg) method resource h d p w))
    = (sent w ++ [rq])%list
    /\ (forall params k v,
          p = Some params ->
          (In (k, v) (req_params rq) <-> In (k, v) params /\ v <> PyNone))
    /\ (forall params k, p = Some params -> ~ In (k, PyNone) (req_params rq))
    /\ (p = None -> req_params rq = [])
    /\ (h = None -> req_headers rq = [])
    /\ (forall hs, h = Some hs -> req_headers rq = hs).
Proof.
  rewrite request_run; simpl. eexists; split; [reflexivity |]; simpl.
  split; [| split; [| split; [| split]]].
  - intros params k v ->. apply normalize_params_In.
  - intros params k -> Hin. apply normalize_params_In in Hin.
    now destruct Hin.
  - now intros ->.
  - now intros ->.
  - intros hs ->. apply normalize_headers_Some.
Qed.

(** A mapping with one [None] and one string: only the string is sent. *)
Lemma C4_null_parameters_dropped_witness :
  sent (snd (request utc_host (Some WHISTLE_CONST) "get" "pets" None None
               (Some [("start_date", PyNone); ("end_date", PyStr "2020-01-02")])
               fresh_world))
  = [ {| req_method := "get";
         req_url := "https://app.whistle.com/api/pets";
         req_headers := [];
         req_data := None;
         req_params := [("end_date", PyStr "2020-01-02")] |} ]
  /\ ~ In ("start_date", PyNone) [("end_date", PyStr "2020-01-02")].
Proof.
  split; [reflexivity |].
  destruct (C4_null_parameters_dropped utc_host WHISTLE_CONST "get" "pets"
              None None
              (Some [("start_date", PyNone); ("end_date", PyStr "2020-01-02")])
              fresh_world) as (rq & Hsent & _ & Hnone & _).
  injection Hsent as <-.
  apply (Hnone _ "start_date" eq_refl).
Defined.

(** The session refuses a query that holds a [bool]. *)
Lemma check_query_bool (params : Dict PyVal) (k : string) (b : bool) :
  In (k, PyBool b) params -> exists e, check_query params = Raise e.
Proof.
  induction params as [| [k' v'] rest IH]; simpl; [tauto |].
  intros [Heq | Hin].
  - injection Heq as _ ->. simpl. eexists; reflexivity.
  - destruct (match v' with PyList vs => query_vars vs | _ => query_var v' end)
      as [[] | e]; [now apply IH | now exists e].
Qed.

(** C10, as the code has it: the filter tests for [None] and nothing else.
    An entry whose value is false in the Python sense without being [None]
    (the empty string, zero, [False]) is among the parameters handed to the
    session, with that value, and an entry that is not handed over had the
    value [None].  What the session does with it is another matter: the
    empty string and zero pass its check of query values, and at a [bool]
    it refuses the request, so that the call raises and no answer of the
    server is returned. *)
Theorem C10_falsy_parameters_kept
    (os : Platform) (cfg : Config) (method resource : string)
    (h : option (Dict string)) (d : option (Dict PyVal))
    (params : Dict PyVal) (w : World) (k : string) (v : PyVal) :
  In (k, v) params ->
  exists rq,
    sent (snd (request os (Some cfg) method resource h d (Some params) w))
    = (sent w ++ [rq])%list
    /\ (truthy v = false -> v <> PyNone -> In (k, v) (req_params rq))
    /\ (v = PyStr "" \/ v = PyInt 0 \/ v = PyBool false ->
        In (k, v) (req_params rq))
    /\ (~ In (k, v) (req_params rq) -> v = PyNone)
    /\ (v = PyStr "" \/ v = PyInt 0 -> query_var v = Ok tt)
    /\ (forall b, v = PyBool b ->
        exists e,
          check_query (req_params rq) = Raise e
          /\ _websession (self w) (sent w) rq = Rejected e
          /\ fst (request os (Some cfg) method resource h d (Some params) w)
             = Raise e).
Proof.
  intros Hin. rewrite request_run; simpl.
  eexists; split; [reflexivity |]; simpl.
  split; [| split; [| split; [| split]]].
  - intros _ Hv. apply normalize_params_In. now split.
  - intros Hv. apply normalize_params_In. split; [exact Hin |].
    destruct Hv as [-> | [-> | ->]]; discriminate.
  - intros Hout. destruct v; try reflexivity;
      exfalso; apply Hout; apply normalize_params_In;
      (split; [exact Hin | discriminate]).
  - intros [-> | ->]; reflexivity.
  - intros b ->.
    assert (Hsent : In (k, PyBool b) (normalize_params (Some params)))
      by (apply normalize_params_In; split; [exact Hin | discriminate]).
    destruct (check_query_bool _ k b Hsent) as [e He].
    exists e. split; [exact He |].
    pose proof (session_checks_query (_websession (self w)) (sent w)
                  (outgoing cfg method resource h d (Some params)) e He)
      as Hrej.
    split; [exact Hrej |]. rewrite Hrej. reflexivity.
Qed.

(** The empty string and zero are handed over, and the session accepts the
    request. *)
Lemma C10_falsy_parameters_kept_witness :
  sent (snd (request utc_host (Some WHISTLE_CONST) "get" "pets" None None
               (Some [ ("a", PyStr ""); ("b", PyInt 0); ("d", PyNone) ])
               fresh_world))
  = [ {| req_method := "get";
         req_url := "https://app.whistle.com/api/pets";
         req_headers := [];
         req_data := None;
         req_params := [("a", PyStr ""); ("b", PyInt 0)] |} ]
  /\ In ("b", PyInt 0) [("a", PyStr ""); ("b", PyInt 0)]
  /\ fst (request utc_host (Some WHISTLE_CONST) "get" "pets" None None
            (Some [ ("a", PyStr ""); ("b", PyInt 0); ("d", PyNone) ])
            fresh_world)
     = Ok (PyList [PyInt 1]).
Proof.
  split; [reflexivity |].
  destruct (C10_falsy_parameters_kept utc_host WHISTLE_CONST "get" "pets"
              None None
              [ ("a", PyStr ""); ("b", PyInt 0); ("d", PyNone) ]
              fresh_world "b" (PyInt 0)) as (rq & Hsent & Hfalsy & _).
  - simpl. tauto.
  - injection Hsent as <-. split; [| reflexivity].
    apply Hfalsy; [reflexivity | discriminate].
Defined.

(** C10 as stated fails at [False]: the entry passes the filter and is
    handed to the session, which refuses it; the call raises [TypeError]
    and the answer the server has for the same request with zero in the
    place of [False] never comes. *)
Lemma C10_counterexample :
  truthy (PyBool false) = false
  /\ sent (snd (request utc_host (Some WHISTLE_CONST) "get" "pets" None None
                  (Some [("excluded", PyBool false)]) fresh_world))
     = [ {| req_method := "get";
            req_url := "https://app.whistle.com/api/pets";
            req_headers := [];
            req_data := None;
            req_params := [("excluded", PyBool false)] |} ]
  /\ fst (request utc_host (Some WHISTLE_CONST) "get" "pets" None None
            (Some [("excluded", PyBool false)]) fresh_world)
     = Raise (TypeError
                "Invalid variable type: value should be str, int or float")
  /\ fst (request utc_host (Some WHISTLE_CONST) "get" "pets" None None
            (Some [("excluded", PyInt 0)]) fresh_world)
     = Ok (PyList [PyInt 1]).
Proof. repeat split. Qed.

(** ** HTTP errors *)

(** C2, as the code has it: when the session answers with a status of 400 or
    more, the primitive raises [ClientResponseError] carrying the status,
    the reason phrase and the response headers, whatever the body is; when
    the status is below 400 and the body parses as JSON, the primitive
    returns the parsed value. *)
Theorem C2_http_error_carries_status
    (os : Platform) (cfg : Config) (method resource : string)
    (h : option (Dict string)) (d : option (Dict PyVal))
    (p : option (Dict PyVal)) (w : World) (r : HttpResponse) :
  _websession (self w) (sent w)
    {| req_method := method;
       req_url := proto cfg ++ "://" ++ remote_host cfg ++ "/" ++ endpoint cfg
                    ++ "/" ++ resource;
       req_headers := normalize_headers h;
       req_data := d;
       req_params := normalize_params p |} = Answered r ->
  (400 <= status r ->
   fst (request os (Some cfg) method resource h d p w)
   = Raise (ClientResponseError (status r) (reason r) (resp_headers r)))
  /\ (status r < 400 ->
      forall v, json r = Parsed v ->
      fst (request os (Some cfg) method resource h d p w) = Ok v).
Proof.
  intros Hans. rewrite request_run. unfold outgoing, composed_url.
  rewrite Hans; simpl. split.
  - intros Hge. apply Z.leb_le in Hge. now rewrite Hge.
  - intros Hlt v Hv. apply Z.leb_gt in Hlt. now rewrite Hlt, Hv.
Qed.

Lemma C2_http_error_carries_status_witness :
  fst (request utc_host (Some WHISTLE_CONST) "get" "pets" None None None
         (world_answering (http 404 "Not Found" "no such pet" Malformed)))
  = Raise (ClientResponseError 404 "Not Found" []).
Proof.
  apply (C2_http_error_carries_status utc_host WHISTLE_CONST "get" "pets"
           None None None
           (world_answering (http 404 "Not Found" "no such pet" Malformed))
           (http 404 "Not Found" "no such pet" Malformed) eq_refl).
  simpl. lia.
Defined.

(** C2 as stated fails twice.  Two answers with the same status line and
    different bodies raise the same exception: the body is not in it.  And
    the status 300, which is not of the 2xx class, raises nothing: its JSON
    body is returned. *)
Lemma C2_counterexample :
  (fst (request utc_host (Some WHISTLE_CONST) "get" "pets" None None None
          (world_answering
             (http 500 "Internal Server Error" "disk full" Malformed)))
   = fst (request utc_host (Some WHISTLE_CONST) "get" "pets" None None None
            (world_answering
               (http 500 "Internal Server Error" "out of memory" Malformed)))
   /\ body (http 500 "Internal Server Error" "disk full" Malformed)
      <> body (http 500 "Internal Server Error" "out of memory" Malformed))
  /\ is_2xx 300 = false
  /\ fst (request utc_host (Some WHISTLE_CONST) "get" "pets" None None None
            (world_answering
               (http 300 "Multiple Choices" "[]" (Parsed (PyList [])))))
     = Ok (PyList []).
Proof.
  split; [split; [reflexivity | discriminate] |].
  split; reflexivity.
Qed.

(** ** Calls before initialization *)

(** C1, as the code has it: a resource method called while the configuration
    is [None] raises the [TypeError] of subscripting [None], and nothing is
    handed to the session nor changed in the client; called while the
    configuration is set and the token is [None], it hands its request to
    the session, with the Authorization header [Bearer None]. *)
Theorem C1_uninitialized_call
    (os : Platform) (c : ResourceCall) (w : World) :
  (_config (self w) = None ->
   run_call os c w
   = (Raise (TypeError "'NoneType' object is not subscriptable"), w))
  /\ (forall cfg,
        _config (self w) = Some cfg ->
        _token (self w) = PyNone ->
        exists rq,
          sent (snd (run_call os c w)) = (sent w ++ [rq])%list
          /\ req_method rq = "get"
          /\ dict_get "Authorization" (req_headers rq) = Some "Bearer None").
Proof.
  split.
  - apply run_call_unconfigured.
  - intros cfg Hcfg Htok. rewrite (run_call_run os c cfg w Hcfg), Htok; simpl.
    eexists; repeat split; reflexivity.
Qed.

Lemma C1_uninitialized_call_witness :
  run_call utc_host (GetOwners (PyInt 7)) fresh_world
  = (Raise (TypeError "'NoneType' object is not subscriptable"), fresh_world).
Proof.
  apply (C1_uninitialized_call utc_host (GetOwners (PyInt 7)) fresh_world).
  reflexivity.
Defined.

(** C1 as stated fails: after an [async_init] whose login was rejected, the
    token is still [None], and [get_pets] does not fail; it sends its
    request and returns what the server answers. *)
Lemma C1_counterexample :
  fst (async_init utc_host WHISTLE_CONST rejected_world)
  = Raise (ClientResponseError 401 "Unauthorized" [])
  /\ _token (self half_initialized_world) = PyNone
  /\ fst (run_call utc_host GetPets half_initialized_world) = Ok (PyList [])
  /\ sent (snd (run_call utc_host GetPets half_initialized_world))
     = (sent half_initialized_world
        ++ [ {| req_method := "get";
                req_url := "https://app.whistle.com/api/pets";
                req_headers :=
                  [ ("Host", "app.whistle.com");
                    ("Content-Type", "application/json");
                    ("Connection", "keep-alive");
                    ("Accept", "application/vnd.whistle.com.v4+json");
                    ("Accept-Language", "en-us");
                    ("Accept-Encoding", "br, gzip, deflate");
                    ("User-Agent",
                     "Winston/2.5.3 (iPhone; iOS 12.0.1; Build:1276; Scale/2.0)");
                    ("Authorization", "Bearer None") ];
                req_data := None;
                req_params := [] |} ])%list.
Proof. repeat split. Qed.

(** ** The date range of [get_dailies] *)

Section DailiesFacts.

Variable os : Platform.

(** The format of [DATEFORMAT_YYYYMMDD], spelled out. *)
Lemma strftime_YYYYMMDD (d : datetime) :
  strftime os d DATEFORMAT_YYYYMMDD
  = (if strftime_pads_year os
     then zfill 4 (str_of_Z (year d))
     else str_of_Z (year d))
      ++ "-" ++ zfill 2 (str_of_Z (month d))
      ++ "-" ++ zfill 2 (str_of_Z (day d)).
Proof.
  unfold DATEFORMAT_YYYYMMDD; simpl strftime. now rewrite append_empty_r.
Qed.

(** The request [get_dailies] sends, for a configured client. *)
Lemma get_dailies_run pet_id start_date end_date cfg w :
  _config (self w) = Some cfg ->
  exists rq,
    sent (snd (get_dailies os pet_id start_date end_date w))
    = (sent w ++ [rq])%list
    /\ req_params rq
       = normalize_params
           (Some [ ("start_date",
                    format_date os (fst (default_dates os start_date end_date)));
                   ("end_date",
                    format_date os (snd (default_dates os start_date end_date)))
                 ]).
Proof.
  intros Hcfg.
  change (get_dailies os pet_id start_date end_date)
    with (run_call os (GetDailies pet_id start_date end_date)).
  rewrite (run_call_run os _ cfg w Hcfg); simpl.
  eexists; split; reflexivity.
Qed.

(** A start date alone: the end date is the clock's [now]. *)
Lemma default_dates_start_only (s : datetime) :
  default_dates os (Some s) None = (Some s, Some (clock_now os)).
Proof. reflexivity. Qed.

(** An end date alone: the start date is the local time of instant 0. *)
Lemma default_dates_end_only (e : datetime) :
  default_dates os None (Some e) = (Some (fromtimestamp os 0), Some e).
Proof. reflexivity. Qed.

Lemma default_dates_both (s e : datetime) :
  default_dates os (Some s) (Some e) = (Some s, Some e).
Proof. reflexivity. Qed.

(** No date at all: nothing is sent as a parameter. *)
Lemma get_dailies_no_dates :
  normalize_params
    (Some [ ("start_date", format_date os (fst (default_dates os None None)));
            ("end_date", format_date os (snd (default_dates os None None))) ])
  = [].
Proof. reflexivity. Qed.

(** Dates that are present are sent as formatted strings. *)
Lemma get_dailies_dates_formatted (s e : datetime) :
  normalize_params
    (Some [("start_date", format_date os (Some s));
           ("end_date", format_date os (Some e))])
  = [ ("start_date", PyStr (strftime os s DATEFORMAT_YYYYMMDD));
      ("end_date", PyStr (strftime os e DATEFORMAT_YYYYMMDD)) ].
Proof. reflexivity. Qed.

(** On a host at or east of UTC, instant 0 falls on 1970-01-01. *)
Lemma epoch_date_east_of_utc :
  0 <= tz_utcoffset os 0 < 86400 ->
  strftime os (fromtimestamp os 0) DATEFORMAT_YYYYMMDD = "1970-01-01".
Proof.
  intros Hoff. unfold fromtimestamp.
  rewrite Z.add_0_l, (Z.div_small _ 86400) by exact Hoff.
  unfold DATEFORMAT_YYYYMMDD; simpl.
  destruct (strftime_pads_year os); reflexivity.
Qed.

(** On a host west of UTC, instant 0 falls on the last day of 1969. *)
Lemma epoch_date_west_of_utc :
  -86400 <= tz_utcoffset os 0 < 0 ->
  strftime os (fromtimestamp os 0) DATEFORMAT_YYYYMMDD = "1969-12-31".
Proof.
  intros Hoff. unfold fromtimestamp. rewrite Z.add_0_l.
  assert (Hq : tz_utcoffset os 0 / 86400 = -1).
  { symmetry. apply (Z.div_unique _ 86400 (-1) (tz_utcoffset os 0 + 86400));
      lia. }
  rewrite Hq. unfold DATEFORMAT_YYYYMMDD; simpl.
  destruct (strftime_pads_year os); reflexivity.
Qed.

End DailiesFacts.

(** C3, at the input where the code leaves it: on a host eight hours west of
    UTC, [get_dailies] called with an end date and no start date sends the
    start date 1969-12-31, not 1970-01-01, because [fromtimestamp(0)] is a
    local time. *)
Theorem C3_epoch_default_is_local_time :
  sent (snd (get_dailies pacific_host (PyInt 3) None
               (Some (mk_datetime 2020 1 2 0 0 0 0)) initialized_world))
  = (sent initialized_world
     ++ [ {| req_method := "get";
             req_url := "https://app.whistle.com/api/pets/3/dailies";
             req_headers :=
               [ ("Host", "app.whistle.com");
                 ("Content-Type", "application/json");
                 ("Connection", "keep-alive");
                 ("Accept", "application/vnd.whistle.com.v4+json");
                 ("Accept-Language", "en-us");
                 ("Accept-Encoding", "br, gzip, deflate");
                 ("User-Agent",
                  "Winston/2.5.3 (iPhone; iOS 12.0.1; Build:1276; Scale/2.0)");
                 ("Authorization", "Bearer tok123") ];
             req_data := None;
             req_params := [ ("start_date", PyStr "1969-12-31");
                             ("end_date", PyStr "2020-01-02") ] |} ])%list.
Proof. reflexivity. Qed.

(** ** The scenario of the specification *)

(** Credentials [a@b.com] and [pw]; the server answers the login with the
    token [tok123]; [get_pets] then sends [Bearer tok123] and returns the
    array the server answers, unmodified. *)
Example login_then_get_pets :
  fst (async_init utc_host WHISTLE_CONST fresh_world) = Ok tt
  /\ _token (self initialized_world) = PyStr "tok123"
  /\ fst (get_pets utc_host initialized_world) = Ok (PyList [PyInt 1])
  /\ map req_url (sent (snd (get_pets utc_host initialized_world)))
     = [ "https://app.whistle.com/api/login";
         "https://app.whistle.com/api/pets" ]
  /\ map (fun rq => dict_get "Authorization" (req_headers rq))
       (sent (snd (get_pets utc_host initialized_world)))
     = [ None; Some "Bearer tok123" ].
Proof. repeat split. Qed.

(** * Further properties of the client *)

(** ** What is handed to the session *)

Section SentFacts.

Variable os : Platform.

Lemma requests_of_appended {A : Type} (m : M A) (w : World)
    (l : list Request) :
  sent (snd (m w)) = (sent w ++ l)%list -> requests_of m w = l.
Proof.
  intros H. unfold requests_of. rewrite H, skipn_app, skipn_all, Nat.sub_diag.
  reflexivity.
Qed.

Lemma requests_of_run_call c cfg w :
  _config (self w) = Some cfg ->
  requests_of (run_call os c) w
  = [resource_request os cfg (_token (self w)) c].
Proof.
  intros Hcfg. apply requests_of_appended.
  rewrite (run_call_run os c cfg w Hcfg). reflexivity.
Qed.

Lemma async_init_sent cfg w :
  sent (snd (async_init os cfg w))
  = if is_None (_token (self w))
    then (sent w ++ [login_request cfg (self w)])%list
    else sent w.
Proof.
  destruct (is_None (_token (self w))) eqn:Ht.
  - rewrite async_init_login by exact Ht. rewrite login_run.
    destruct (match outcome _ with Ok j => getitem j "auth_token"
                                 | Raise e0 => Raise e0 end); reflexivity.
  - rewrite async_init_cached by exact Ht. reflexivity.
Qed.

End SentFacts.

(** ** The endpoint table *)

(** X1: on a configured client each resource method hands the session one
    request, whose URL is the configured base followed by the path of the
    method: [pets], [pets/ID/owners], [places], [pets/ID/stats],
    [pets/ID/timelines/location], [pets/ID/dailies], [pets/ID/dailies/DAY]
    and [pets/ID/achievements], the identifiers converted with [str]. *)
Theorem X1_endpoint_paths
    (os : Platform) (cfg : Config) (w : World) (pet_id day_id : PyVal)
    (s e : option datetime) :
  _config (self w) = Some cfg ->
  let at_path (m : M PyVal) (path : string) :=
    map req_url (requests_of m w)
    = [ proto cfg ++ "://" ++ remote_host cfg ++ "/" ++ endpoint cfg ++ "/"
          ++ path ] in
  at_path (get_pets os) "pets"
  /\ at_path (get_owners os pet_id) ("pets/" ++ py_str os pet_id ++ "/owners")
  /\ at_path (get_places os) "places"
  /\ at_path (get_stats os pet_id) ("pets/" ++ py_str os pet_id ++ "/stats")
  /\ at_path (get_timeline os pet_id)
       ("pets/" ++ py_str os pet_id ++ "/timelines/location")
  /\ at_path (get_dailies os pet_id s e)
       ("pets/" ++ py_str os pet_id ++ "/dailies")
  /\ at_path (get_dailies_day os pet_id day_id)
       ("pets/" ++ py_str os pet_id ++ "/dailies/" ++ py_str os day_id)
  /\ at_path (get_achievements os pet_id)
       ("pets/" ++ py_str os pet_id ++ "/achievements").
Proof.
  intros Hcfg. cbv beta zeta.
  pose proof (fun c => requests_of_run_call os c cfg w Hcfg) as H.
  pose proof (H GetPets) as H1. pose proof (H (GetOwners pet_id)) as H2.
  pose proof (H GetPlaces) as H3. pose proof (H (GetStats pet_id)) as H4.
  pose proof (H (GetTimeline pet_id)) as H5.
  pose proof (H (GetDailies pet_id s e)) as H6.
  pose proof (H (GetDailiesDay pet_id day_id)) as H7.
  pose proof (H (GetAchievements pet_id)) as H8.
  simpl run_call in *.
  rewrite H1, H2, H3, H4, H5, H6, H7, H8.
  repeat split.
Qed.

Lemma X1_endpoint_paths_witness :
  map req_url (requests_of (get_dailies_day utc_host (PyInt 7) (PyStr "42"))
                 initialized_world)
  = [ "https://app.whistle.com/api/pets/7/dailies/42" ].
Proof.
  destruct (X1_endpoint_paths utc_host WHISTLE_CONST initialized_world
              (PyInt 7) (PyStr "42") None None eq_refl)
    as (_ & _ & _ & _ & _ & _ & H & _).
  exact H.
Defined.

(** X2: the request of a resource method is a GET without a body; it has
    query parameters only when the method is [get_dailies] called with at
    least one date. *)
Theorem X2_resource_requests_are_plain_gets
    (os : Platform) (c : ResourceCall) (cfg : Config) (w : World) :
  _config (self w) = Some cfg ->
  exists rq,
    requests_of (run_call os c) w = [rq]
    /\ req_method rq = "get"
    /\ req_data rq = None
    /\ (req_params rq <> [] ->
        exists pet_id s e,
          c = GetDailies pet_id s e /\ (s <> None \/ e <> None)).
Proof.
  intros Hcfg. rewrite (requests_of_run_call os c cfg w Hcfg).
  eexists; split; [reflexivity |]. split; [reflexivity |].
  split; [reflexivity |].
  destruct c; simpl; try (intros Hne; now elim Hne).
  destruct start_date as [s |], end_date as [e |]; simpl; intros Hne.
  - exists pet_id, (Some s), (Some e). split; [reflexivity | left; discriminate].
  - exists pet_id, (Some s), None. split; [reflexivity | left; discriminate].
  - exists pet_id, None, (Some e). split; [reflexivity | right; discriminate].
  - now elim Hne.
Qed.

Lemma X2_resource_requests_are_plain_gets_witness :
  exists rq,
    requests_of (run_call utc_host (GetStats (PyInt 7))) initialized_world
    = [rq]
    /\ req_method rq = "get" /\ req_data rq = None.
Proof.
  destruct (X2_resource_requests_are_plain_gets utc_host (GetStats (PyInt 7))
              WHISTLE_CONST initialized_world eq_refl)
    as (rq & Hrq & Hm & Hd & _).
  exists rq. repeat split; assumption.
Defined.

(** ** No retry, no hidden state *)

(** X3: no method hands the session more than one request per call, and none
    touches the requests already sent: whatever the outcome, the log after
    the call is the log before it followed by at most one request. *)
Theorem X3_at_most_one_request (os : Platform) (w : World) :
  (forall c,
     exists l, sent (snd (run_call os c w)) = (sent w ++ l)%list
               /\ (List.length l <= 1)%nat)
  /\ (forall cfg,
        exists l, sent (snd (async_init os cfg w)) = (sent w ++ l)%list
                  /\ (List.length l <= 1)%nat)
  /\ (forall config,
        exists l, sent (snd (login os config w)) = (sent w ++ l)%list
                  /\ (List.length l <= 1)%nat)
  /\ (forall config token resource params,
        exists l,
          sent (snd (get_resource os config token resource params w))
          = (sent w ++ l)%list
          /\ (List.length l <= 1)%nat)
  /\ (forall config method resource h d p,
        exists l,
          sent (snd (request os config method resource h d p w))
          = (sent w ++ l)%list
          /\ (List.length l <= 1)%nat).
Proof.
  assert (Hnil : forall l0 : list Request, l0 = (l0 ++ [])%list)
    by (intros; now rewrite app_nil_r).
  split; [| split; [| split; [| split]]].
  - intros c. rewrite run_call_get_resource.
    destruct (_config (self w)) as [cfg |].
    + rewrite get_resource_run. eexists; split; [reflexivity | simpl; lia].
    + rewrite get_resource_unconfigured. exists []. split; [apply Hnil | simpl; lia].
  - intros cfg. rewrite async_init_sent.
    destruct (is_None (_token (self w))).
    + eexists; split; [reflexivity | simpl; lia].
    + exists []. split; [apply Hnil | simpl; lia].
  - intros [cfg |].
    + rewrite login_run. eexists; split; [reflexivity | simpl; lia].
    + exists []. split; [apply Hnil | simpl; lia].
  - intros [cfg |] token resource params.
    + rewrite get_resource_run. eexists; split; [reflexivity | simpl; lia].
    + exists []. split; [apply Hnil | simpl; lia].
  - intros [cfg |] method resource h d p.
    + rewrite request_run. eexists; split; [reflexivity | simpl; lia].
    + exists []. split; [apply Hnil | simpl; lia].
Qed.

(** X4: [request], [get_resource], [login] and the resource methods leave
    every field of the client as it was, whatever the outcome; [async_init]
    never changes the credentials nor the session, and always leaves the
    supplied configuration in place, whether it returns or raises. *)
Theorem X4_client_fields_stable (os : Platform) (w : World) :
  (forall c, self (snd (run_call os c w)) = self w)
  /\ (forall config, self (snd (login os config w)) = self w)
  /\ (forall config token resource params,
        self (snd (get_resource os config token resource params w)) = self w)
  /\ (forall config method resource h d p,
        self (snd (request os config method resource h d p w)) = self w)
  /\ (forall cfg,
        let me := self (snd (async_init os cfg w)) in
        _config me = Some cfg
        /\ _username me = _username (self w)
        /\ _password me = _password (self w)
        /\ _websession me = _websession (self w)).
Proof.
  split; [| split; [| split; [| split]]].
  - intros c. apply run_call_keeps_self.
  - intros config. apply login_keeps_self.
  - intros. apply get_resource_keeps_self.
  - intros. apply request_keeps_self.
  - intros cfg me. subst me.
    destruct (is_None (_token (self w))) eqn:Ht.
    + rewrite async_init_login by exact Ht. rewrite login_run.
      destruct (match outcome _ with Ok j => getitem j "auth_token"
                                   | Raise e0 => Raise e0 end);
        simpl; repeat split.
    + rewrite async_init_cached by exact Ht. simpl. repeat split.
Qed.

(** ** Results of the resource methods *)

(** X5: a resource method of a configured client returns the JSON value of
    the answer as it is, and otherwise raises what [request] raises: the
    exception of a session that refuses the request, the connection error
    of the session, [ClientResponseError] for a status of
    400 or more, [ContentTypeError] or [JSONDecodeError] when the body does
    not give a JSON value.  Nothing is caught or converted on the way. *)
Theorem X5_payload_and_errors_pass_through
    (os : Platform) (c : ResourceCall) (cfg : Config) (w : World) :
  _config (self w) = Some cfg ->
  exists rq,
    requests_of (run_call os c) w = [rq]
    /\ match _websession (self w) (sent w) rq with
       | Rejected e => fst (run_call os c w) = Raise e
       | ConnectionFailed msg =>
           fst (run_call os c w) = Raise (ClientConnectionError msg)
       | Answered r =>
           (400 <= status r ->
            fst (run_call os c w)
            = Raise (ClientResponseError (status r) (reason r)
                       (resp_headers r)))
           /\ (status r < 400 ->
               match json r with
               | Parsed v => fst (run_call os c w) = Ok v
               | UnexpectedMimetype =>
                   fst (run_call os c w) = Raise ContentTypeError
               | Malformed => fst (run_call os c w) = Raise JSONDecodeError
               end)
       end.
Proof.
  intros Hcfg. rewrite (requests_of_run_call os c cfg w Hcfg).
  eexists; split; [reflexivity |].
  rewrite (run_call_run os c cfg w Hcfg); simpl fst.
  destruct (_websession (self w) (sent w) _) as [e | msg | r]; simpl;
    [reflexivity | reflexivity |].
  split.
  - intros Hge. apply Z.leb_le in Hge. now rewrite Hge.
  - intros Hlt. apply Z.leb_gt in Hlt. rewrite Hlt.
    destruct (json r); reflexivity.
Qed.

Lemma X5_payload_and_errors_pass_through_witness :
  fst (run_call utc_host (GetOwners (PyInt 7)) initialized_world)
  = Ok (PyList [PyInt 1]).
Proof.
  destruct (X5_payload_and_errors_pass_through utc_host (GetOwners (PyInt 7))
              WHISTLE_CONST initialized_world eq_refl) as (rq & Hrq & H).
  injection Hrq as <-.
  destruct H as [_ H]. apply H. simpl. lia.
Defined.

(** ** Initialization and what follows it *)

Section InitFacts.

Variable os : Platform.

(** [async_init] from a world without a token, when the login is answered
    with an object that has the [auth_token] entry. *)
Lemma async_init_token cfg w r d t :
  _token (self w) = PyNone ->
  _websession (self w) (sent w) (login_request cfg (self w)) = Answered r ->
  status r < 400 ->
  json r = Parsed (PyDict d) ->
  dict_get "auth_token" d = Some t ->
  async_init os cfg w
  = (Ok tt,
     {| self := {| _config := Some cfg; _token := t;
                   _username := _username (self w);
                   _password := _password (self w);
                   _websession := _websession (self w) |};
        sent := (sent w ++ [login_request cfg (self w)])%list |}).
Proof.
  intros Htok Hans Hlt Hjson Hget.
  rewrite async_init_login by (rewrite Htok; reflexivity).
  rewrite login_run. simpl self. simpl sent.
  change (login_request cfg _) with (login_request cfg (self w)).
  change (_websession _ (sent w)) with (_websession (self w) (sent w)).
  rewrite Hans. unfold outcome. apply Z.leb_gt in Hlt.
  rewrite Hlt, Hjson. simpl. rewrite Hget. reflexivity.
Qed.

End InitFacts.

(** X6: the login round trip.  When the client has no token and the server
    answers the login with a JSON object whose [auth_token] is [t],
    [async_init] returns, the client holds the configuration and [t], and
    every resource method called next sends [Authorization: Bearer t]. *)
Theorem X6_login_round_trip
    (os : Platform) (cfg : Config) (w : World) (r : HttpResponse)
    (d : Dict PyVal) (t : PyVal) :
  _token (self w) = PyNone ->
  _websession (self w) (sent w) (login_request cfg (self w)) = Answered r ->
  status r < 400 ->
  json r = Parsed (PyDict d) ->
  dict_get "auth_token" d = Some t ->
  let w' := snd (async_init os cfg w) in
  fst (async_init os cfg w) = Ok tt
  /\ _config (self w') = Some cfg
  /\ _token (self w') = t
  /\ forall c,
       exists rq,
         requests_of (run_call os c) w' = [rq]
         /\ dict_get "Authorization" (req_headers rq)
            = Some ("Bearer " ++ py_str os t).
Proof.
  intros Htok Hans Hlt Hjson Hget w'. subst w'.
  rewrite (async_init_token os cfg w r d t Htok Hans Hlt Hjson Hget).
  simpl. repeat split.
  intros c. erewrite requests_of_run_call by reflexivity.
  eexists; split; reflexivity.
Qed.

Lemma X6_login_round_trip_witness :
  _token (self (snd (async_init utc_host WHISTLE_CONST fresh_world)))
  = PyStr "tok123".
Proof.
  apply (X6_login_round_trip utc_host WHISTLE_CONST fresh_world
           (http 200 "OK" "{ auth_token: tok123 }"
              (Parsed (PyDict [("auth_token", PyStr "tok123")])))
           [("auth_token", PyStr "tok123")] (PyStr "tok123"));
    try reflexivity.
Defined.

(** X7: a null token is no token.  When the server answers the login with an
    object whose [auth_token] is null, [async_init] returns normally and the
    token is still [None]; the next [async_init] logs in again, and a
    resource method called in between sends [Authorization: Bearer None]. *)
Theorem X7_null_token_is_not_cached
    (os : Platform) (cfg : Config) (w : World) (r : HttpResponse)
    (d : Dict PyVal) :
  _token (self w) = PyNone ->
  _websession (self w) (sent w) (login_request cfg (self w)) = Answered r ->
  status r < 400 ->
  json r = Parsed (PyDict d) ->
  dict_get "auth_token" d = Some PyNone ->
  let w' := snd (async_init os cfg w) in
  fst (async_init os cfg w) = Ok tt
  /\ _token (self w') = PyNone
  /\ (forall cfg2,
        requests_of (async_init os cfg2) w' = [login_request cfg2 (self w)])
  /\ (forall c,
        exists rq,
          requests_of (run_call os c) w' = [rq]
          /\ dict_get "Authorization" (req_headers rq) = Some "Bearer None").
Proof.
  intros Htok Hans Hlt Hjson Hget w'. subst w'.
  rewrite (async_init_token os cfg w r d PyNone Htok Hans Hlt Hjson Hget).
  simpl. split; [reflexivity |]. split; [reflexivity |]. split.
  - intros cfg2. apply requests_of_appended.
    rewrite async_init_sent. reflexivity.
  - intros c. erewrite requests_of_run_call by reflexivity.
    eexists; split; reflexivity.
Qed.

Lemma X7_null_token_is_not_cached_witness :
  fst (async_init utc_host WHISTLE_CONST null_token_world) = Ok tt
  /\ _token (self (snd (async_init utc_host WHISTLE_CONST null_token_world)))
     = PyNone.
Proof.
  destruct (X7_null_token_is_not_cached utc_host WHISTLE_CONST
              null_token_world
              (http 200 "OK" "{ auth_token: null }"
                 (Parsed (PyDict [("auth_token", PyNone)])))
              [("auth_token", PyNone)])
    as (Hok & Htok & _); try reflexivity.
  split; [exact Hok | exact Htok].
Defined.

(** X8: [async_init] called again with another configuration, while a token
    is cached, replaces the configuration and keeps the token: the resource
    methods called next go to the new host, under the new base, and carry
    the token obtained from the old one. *)
Theorem X8_reconfiguration_keeps_token
    (os : Platform) (w : World) (cfg2 : Config) (c : ResourceCall) :
  _token (self w) <> PyNone ->
  let w' := snd (async_init os cfg2 w) in
  exists rq,
    requests_of (async_init os cfg2) w = []
    /\ requests_of (run_call os c) w' = [rq]
    /\ req_url rq
       = proto cfg2 ++ "://" ++ remote_host cfg2 ++ "/" ++ endpoint cfg2
           ++ "/" ++ resource_of os c
    /\ dict_get "Host" (req_headers rq) = Some (remote_host cfg2)
    /\ dict_get "Authorization" (req_headers rq)
       = Some ("Bearer " ++ py_str os (_token (self w))).
Proof.
  intros Hset w'. subst w'. apply is_None_false in Hset.
  rewrite (async_init_cached os cfg2 w Hset). simpl snd.
  erewrite (requests_of_run_call os c cfg2) by reflexivity.
  eexists. split.
  - apply requests_of_appended. rewrite async_init_cached by exact Hset.
    simpl. now rewrite app_nil_r.
  - repeat split.
Qed.

Lemma X8_reconfiguration_keeps_token_witness :
  exists rq,
    requests_of (run_call utc_host GetPets)
      (snd (async_init utc_host staging_config initialized_world)) = [rq]
    /\ req_url rq = "http://staging.example/v0/pets"
    /\ dict_get "Authorization" (req_headers rq) = Some "Bearer tok123".
Proof.
  assert (Hset : _token (self initialized_world) <> PyNone)
    by (vm_compute; discriminate).
  destruct (X8_reconfiguration_keeps_token utc_host initialized_world
              staging_config GetPets Hset) as (rq & _ & Hrq & Hurl & _ & Hauth).
  exists rq. split; [exact Hrq |]. split; [exact Hurl | exact Hauth].
Defined.

(** X9: a failed initialization can be tried again.  When [async_init]
    raises, the next [async_init] sends the login request once more, with
    the same credentials and for the configuration it is then given. *)
Theorem X9_failed_init_is_retried
    (os : Platform) (cfg cfg2 : Config) (w : World) (e : Exn) :
  fst (async_init os cfg w) = Raise e ->
  requests_of (async_init os cfg2) (snd (async_init os cfg w))
  = [ {| req_method := "post";
         req_url := proto cfg2 ++ "://" ++ remote_host cfg2 ++ "/"
                      ++ endpoint cfg2 ++ "/" ++ "login";
         req_headers := [];
         req_data := Some [ ("email", PyStr (_username (self w)));
                            ("password", PyStr (_password (self w))) ];
         req_params := [] |} ].
Proof.
  intros Hfail. apply requests_of_appended. rewrite async_init_sent.
  destruct (is_None (_token (self w))) eqn:Ht.
  - rewrite async_init_login in * by exact Ht. rewrite login_run in *.
    destruct (match outcome _ with Ok j => getitem j "auth_token"
                                 | Raise e0 => Raise e0 end) as [t | e'];
      simpl in *; [discriminate |].
    rewrite Ht. reflexivity.
  - rewrite async_init_cached in Hfail by exact Ht. discriminate.
Qed.

Lemma X9_failed_init_is_retried_witness :
  List.length
    (requests_of (async_init utc_host staging_config) half_initialized_world)
  = 1%nat.
Proof.
  unfold half_initialized_world.
  rewrite (X9_failed_init_is_retried utc_host WHISTLE_CONST staging_config
             rejected_world (ClientResponseError 401 "Unauthorized" [])
             eq_refl).
  reflexivity.
Defined.

(** ** The query of [get_dailies] *)

(** X10: [get_dailies] never sends one bound alone.  Its request has either
    no query parameter at all, and then no date was given, or the two
    parameters [start_date] and [end_date], in that order, both strings. *)
Theorem X10_dailies_bounds_come_in_pairs
    (os : Platform) (pet_id : PyVal) (s e : option datetime)
    (cfg : Config) (w : World) :
  _config (self w) = Some cfg ->
  exists rq,
    requests_of (get_dailies os pet_id s e) w = [rq]
    /\ ((req_params rq = [] /\ s = None /\ e = None)
        \/ (exists a b,
              req_params rq
              = [("start_date", PyStr a); ("end_date", PyStr b)]
              /\ (s <> None \/ e <> None))).
Proof.
  intros Hcfg.
  change (get_dailies os pet_id s e)
    with (run_call os (GetDailies pet_id s e)).
  rewrite (requests_of_run_call os _ cfg w Hcfg).
  eexists; split; [reflexivity |].
  destruct s as [s |], e as [e |]; simpl.
  - right. do 2 eexists. split; [reflexivity | left; discriminate].
  - right. do 2 eexists. split; [reflexivity | left; discriminate].
  - right. do 2 eexists. split; [reflexivity | right; discriminate].
  - left. repeat split.
Qed.

Lemma X10_dailies_bounds_come_in_pairs_witness :
  map req_params
    (requests_of (get_dailies utc_host (PyInt 3)
                    (Some (mk_datetime 2020 1 2 0 0 0 0)) None)
       initialized_world)
  = [ [ ("start_date", PyStr "2020-01-02");
        ("end_date", PyStr "2024-03-05") ] ].
Proof.
  destruct (X10_dailies_bounds_come_in_pairs utc_host (PyInt 3)
              (Some (mk_datetime 2020 1 2 0 0 0 0)) None
              WHISTLE_CONST initialized_world eq_refl) as (rq & Hrq & _).
  rewrite Hrq. injection Hrq as <-. reflexivity.
Defined.

(** X11: the dates [get_dailies] is given are sent as given.  With both
    dates, the parameters are the two dates formatted, and neither the
    clock nor the time zone of the host has a part in them; with a start
    date alone, the start is the date given and the end is the clock's
    [now], formatted; with no date there is no parameter. *)
Theorem X11_dailies_given_dates
    (os : Platform) (pet_id : PyVal) (cfg : Config) (w : World)
    (s e : datetime) :
  _config (self w) = Some cfg ->
  map req_params (requests_of (get_dailies os pet_id (Some s) (Some e)) w)
  = [ [ ("start_date", PyStr (strftime os s "%Y-%m-%d"));
        ("end_date", PyStr (strftime os e "%Y-%m-%d")) ] ]
  /\ map req_params (requests_of (get_dailies os pet_id (Some s) None) w)
     = [ [ ("start_date", PyStr (strftime os s "%Y-%m-%d"));
           ("end_date", PyStr (strftime os (clock_now os) "%Y-%m-%d")) ] ]
  /\ map req_params (requests_of (get_dailies os pet_id None None) w)
     = [ [] ].
Proof.
  intros Hcfg.
  pose proof (fun a b =>
                requests_of_run_call os (GetDailies pet_id a b) cfg w Hcfg)
    as H.
  simpl run_call in H. rewrite !H. repeat split.
Qed.

Lemma X11_dailies_given_dates_witness :
  map req_params
    (requests_of (get_dailies pacific_host (PyInt 3)
                    (Some (mk_datetime 2019 12 31 0 0 0 0))
                    (Some (mk_datetime 2020 1 2 0 0 0 0)))
       initialized_world)
  = [ [ ("start_date", PyStr "2019-12-31");
        ("end_date", PyStr "2020-01-02") ] ].
Proof.
  apply (X11_dailies_given_dates pacific_host (PyInt 3) WHISTLE_CONST
           initialized_world (mk_datetime 2019 12 31 0 0 0 0)
           (mk_datetime 2020 1 2 0 0 0 0) eq_refl).
Defined.

(** X12: with an end date alone, the start date sent is the local calendar
    date of the instant 0.  On a host whose offset from UTC at that instant
    is zero or east (less than a day), it is 1970-01-01; on a host west of
    UTC it is 1969-12-31. *)
Theorem X12_dailies_epoch_default_by_time_zone
    (os : Platform) (pet_id : PyVal) (cfg : Config) (w : World)
    (e : datetime) :
  _config (self w) = Some cfg ->
  (0 <= tz_utcoffset os 0 < 86400 ->
   map req_params (requests_of (get_dailies os pet_id None (Some e)) w)
   = [ [ ("start_date", PyStr "1970-01-01");
         ("end_date", PyStr (strftime os e "%Y-%m-%d")) ] ])
  /\ (-86400 <= tz_utcoffset os 0 < 0 ->
      map req_params (requests_of (get_dailies os pet_id None (Some e)) w)
      = [ [ ("start_date", PyStr "1969-12-31");
            ("end_date", PyStr (strftime os e "%Y-%m-%d")) ] ]).
Proof.
  intros Hcfg.
  pose proof (requests_of_run_call os (GetDailies pet_id None (Some e))
                cfg w Hcfg) as H.
  simpl run_call in H. rewrite H.
  unfold resource_request, outgoing, params_of. cbn [map req_params].
  rewrite default_dates_end_only. cbn [fst snd].
  rewrite get_dailies_dates_formatted.
  split; intros Hoff.
  - now rewrite (epoch_date_east_of_utc os Hoff).
  - now rewrite (epoch_date_west_of_utc os Hoff).
Qed.

Lemma X12_dailies_epoch_default_by_time_zone_witness :
  map req_params
    (requests_of (get_dailies utc_host (PyInt 3) None
                    (Some (mk_datetime 2020 1 2 0 0 0 0)))
       initialized_world)
  = [ [ ("start_date", PyStr "1970-01-01");
        ("end_date", PyStr "2020-01-02") ] ]
  /\ map req_params
       (requests_of (get_dailies pacific_host (PyInt 3) None
                       (Some (mk_datetime 2020 1 2 0 0 0 0)))
          initialized_world)
     = [ [ ("start_date", PyStr "1969-12-31");
           ("end_date", PyStr "2020-01-02") ] ].
Proof.
  split.
  - apply (X12_dailies_epoch_default_by_time_zone utc_host (PyInt 3)
             WHISTLE_CONST initialized_world
             (mk_datetime 2020 1 2 0 0 0 0) eq_refl).
    simpl. lia.
  - apply (X12_dailies_epoch_default_by_time_zone pacific_host (PyInt 3)
             WHISTLE_CONST initialized_world
             (mk_datetime 2020 1 2 0 0 0 0) eq_refl).
    simpl. lia.
Defined.

(** ** Where the credentials go *)

(** X13: the resource methods never send the credentials.  With any other
    email and password in the client, the same call hands the session the
    same requests and has the same result; only [login] reads them. *)
Theorem X13_credentials_stay_out_of_resource_calls
    (os : Platform) (c : ResourceCall) (w : World)
    (email password : string) :
  requests_of (run_call os c) (with_credentials w email password)
  = requests_of (run_call os c) w
  /\ fst (run_call os c (with_credentials w email password))
     = fst (run_call os c w).
Proof.
  unfold requests_of. rewrite !run_call_get_resource. simpl.
  destruct (_config (self w)) as [cfg |].
  - rewrite !get_resource_run. simpl. split; reflexivity.
  - rewrite !get_resource_unconfigured. simpl. split; reflexivity.
Qed.
